(** * pykube.http: the HTTP client of pykube

    A shallow embedding of [HTTPClient] from [pykube/http.py]: session
    construction ([build_session]), URL resolution ([get_kwargs]) and error
    translation ([raise_for_status]), with the Python built-ins and the
    library functions they call ([str.startswith], [dict.pop],
    [posixpath.join], [requests.Response.raise_for_status]).

    Python exceptions are values: every operation that can raise returns a
    [result]. Keyword arguments are a finite map from names to Python
    values. Strings are byte strings; the separator ["/"] is one byte in
    every encoding that the code meets. *)

From Stdlib Require Import String Ascii ZArith List Bool.
From stdpp Require Import base option gmap strings list fin_maps.

Set Warnings "-register-all,-clear-no-such-hyp".
Open Scope string_scope.
Open Scope Z_scope.

(** ** Python values, exceptions and results *)

(** A value found in a keyword-argument dict. [get_kwargs] only looks inside
    strings; [PObj] stands for any value that is neither [str] nor [bytes]
    (None, a number, a dict of headers, a timeout tuple, ...), told apart by
    an identifier. *)
Inductive pyval : Type :=
  | PStr (s : string)
  | PObj (id : nat).

(** A decoded JSON document, as [json.loads] builds it. A number keeps the
    text of its literal. *)
Inductive pyjson : Type :=
  | JNone
  | JBool (b : bool)
  | JNumber (lit : string)
  | JStr (s : string)
  | JList (l : list pyjson)
  | JDict (d : gmap string pyjson).

(** The exceptions that the modelled code can raise. [HTTPError] is
    [pykube.exceptions.HTTPError], built from one argument;
    [RequestsHTTPError] is [requests.exceptions.HTTPError], which carries the
    response (here: its status code). *)
Inductive exn : Type :=
  | TypeError (msg : string)
  | AttributeError (msg : string)
  | KeyError (key : string)
  | ValueError (msg : string)
  | HTTPError (arg : pyjson)
  | RequestsHTTPError (status : Z).

Inductive result (A : Type) : Type :=
  | Ok (a : A)
  | Raise (e : exn).
Arguments Ok {A} a.
Arguments Raise {A} e.

Global Instance result_ret : MRet result := fun _ a => Ok a.
Global Instance result_bind : MBind result := fun _ _ f m =>
  match m with
  | Ok a => f a
  | Raise e => Raise e
  end.

(** ** Built-ins on strings *)

Module Str.

(** [s.startswith(p)] *)
Definition startswith (s p : string) : bool := String.prefix p s.

(** [s.endswith(p)]: [p] is [s] itself or a suffix of the tail of [s]. *)
Fixpoint endswith (s p : string) : bool :=
  String.eqb s p ||
  match s with
  | EmptyString => false
  | String _ s' => endswith s' p
  end.

(** [s[1:]] *)
Definition drop1 (s : string) : string :=
  match s with
  | EmptyString => EmptyString
  | String _ s' => s'
  end.

(** [c.lower()] on one ASCII character. *)
Definition lower_ascii (c : ascii) : ascii :=
  let n := nat_of_ascii c in
  if (Nat.leb 65 n && Nat.leb n 90)%bool then ascii_of_nat (n + 32) else c.

(** [s.lower()] *)
Fixpoint lower (s : string) : string :=
  match s with
  | EmptyString => EmptyString
  | String c s' => String (lower_ascii c) (lower s')
  end.

End Str.

(** ** Built-ins on dicts *)

Module Dict.
Section Ops.
Context {V : Type}.

(** [k in d] *)
Definition contains (d : gmap string V) (k : string) : bool :=
  bool_decide (is_Some (d !! k)).

(** [d.pop(k, default)]: the value and the dict after the call. *)
Definition pop_default (d : gmap string V) (k : string) (dflt : V)
  : V * gmap string V :=
  match d !! k with
  | Some v => (v, delete k d)
  | None => (dflt, d)
  end.

(** [d.pop(k)] *)
Definition pop (d : gmap string V) (k : string)
  : result (V * gmap string V) :=
  match d !! k with
  | Some v => Ok (v, delete k d)
  | None => Raise (KeyError k)
  end.

(** [d.get(k, default)] *)
Definition get (d : gmap string V) (k : string) (dflt : V) : V :=
  default dflt (d !! k).

(** [d[k]] *)
Definition getitem (d : gmap string V) (k : string) : result V :=
  match d !! k with
  | Some v => Ok v
  | None => Raise (KeyError k)
  end.

End Ops.
End Dict.

(** ** Operations of Python values that [get_kwargs] uses *)

(** [v == s] for a string literal [s]: false for a value that is not a
    string. *)
Definition py_eq_str (v : pyval) (s : string) : bool :=
  match v with
  | PStr t => String.eqb t s
  | PObj _ => false
  end.

(** [v.startswith(p)]: only strings have the method. *)
Definition py_startswith (v : pyval) (p : string) : result bool :=
  match v with
  | PStr s => Ok (Str.startswith s p)
  | PObj _ => Raise (AttributeError "object has no attribute 'startswith'")
  end.

(** [v[1:]], used on a value on which [startswith] has succeeded. *)
Definition py_drop1 (v : pyval) : result pyval :=
  match v with
  | PStr s => Ok (PStr (Str.drop1 s))
  | PObj _ => Raise (TypeError "object is not subscriptable")
  end.

(** ** posixpath.join *)

Module posixpath.

Definition sep : string := "/".

(** One turn of the loop of [join]: a component that starts with the
    separator replaces the path built so far; otherwise it is appended,
    with a separator unless the path is empty or already ends with one. *)
Definition join_step (path b : string) : string :=
  if Str.startswith b sep then b
  else if (String.eqb path "" || Str.endswith path sep)%bool then path +:+ b
  else path +:+ sep +:+ b.

Definition join_str (a : string) (p : list string) : string :=
  fold_left join_step p a.

(** [os.fspath] on the values of this model. *)
Definition fspath (msg : string) (v : pyval) : result string :=
  match v with
  | PStr s => Ok s
  | PObj _ => Raise (TypeError msg)
  end.

Fixpoint join_loop (path : string) (p : list pyval) : result string :=
  match p with
  | [] => Ok path
  | b :: p' =>
      b ← fspath "join() argument must be str, bytes, or os.PathLike object" b;
      join_loop (join_step path b) p'
  end.

(** [posixpath.join] applied to the list [bits]; it needs at least one
    argument. The messages of the type errors leave out the name of the
    offending type. *)
Definition join (bits : list pyval) : result string :=
  match bits with
  | [] => Raise (TypeError "join() missing 1 required positional argument: 'a'")
  | a :: p =>
      a ← fspath "expected str, bytes or os.PathLike object" a;
      join_loop a p
  end.

End posixpath.

(** ** HTTPClient.get_kwargs *)

Definition unknown_version : exn :=
  TypeError "unknown API version; base kwarg must be specified.".

(** The choice of [base] (the [if]/[elif] chain on [version]): the base and
    the dict after the [pop]. *)
Definition pop_base (version : pyval) (kwargs : gmap string pyval)
  : result (pyval * gmap string pyval) :=
  if py_eq_str version "v1" then
    Ok (Dict.pop_default kwargs "base" (PStr "/api"))
  else
    ext ← py_startswith version "extensions/";
    if ext : bool then
      Ok (Dict.pop_default kwargs "base" (PStr "/apis"))
    else
      bat ← py_startswith version "batch/";
      if bat : bool then
        Ok (Dict.pop_default kwargs "base" (PStr "/apis"))
      else
        if negb (Dict.contains kwargs "base") then Raise unknown_version
        else Dict.pop kwargs "base".

(** [bits.extend([name, kwargs.pop(key)])] when [key] is in [kwargs]. *)
Definition extend_bits (key name : string)
    (st : list pyval * gmap string pyval)
  : result (list pyval * gmap string pyval) :=
  let '(bits, kwargs) := st in
  if Dict.contains kwargs key then
    '(v, kwargs) ← Dict.pop kwargs key;
    Ok ((bits ++ [PStr name; v])%list, kwargs)
  else Ok (bits, kwargs).

(** [get_kwargs(self, **kwargs)]. [self_url] is the string [self.url]; the
    dict [kwargs] is the one Python builds for the call, so nothing else
    sees the [pop]s. *)
Definition get_kwargs (self_url : string) (kwargs : gmap string pyval)
  : result (gmap string pyval) :=
  let '(version, kwargs) := Dict.pop_default kwargs "version" (PStr "v1") in
  '(base, kwargs) ← pop_base version kwargs;
  let bits := [base; version] in
  '(bits, kwargs) ← extend_bits "namespace" "namespaces" (bits, kwargs);
  '(bits, kwargs) ← extend_bits "pods" "pods" (bits, kwargs);
  let url := Dict.get kwargs "url" (PStr "") in
  slash ← py_startswith url "/";
  url ← (if slash : bool then py_drop1 url else Ok url);
  let bits := (bits ++ [url])%list in
  path ← posixpath.join bits;
  Ok (<["url" := PStr (self_url +:+ path)]> kwargs).

(** The [url] entry of a resolved dict. *)
Definition url_of (r : result (gmap string pyval)) : option pyval :=
  match r with
  | Ok kw => kw !! "url"
  | Raise _ => None
  end.

(** ** requests: case-insensitive headers, responses, sessions *)

(** [requests.structures.CaseInsensitiveDict] with string values: the
    entries are kept under the lower-cased name (the spelling of the name as
    it was last set is not kept). *)
Module CaseInsensitiveDict.

Definition setitem (k v : string) (d : gmap string string)
  : gmap string string := <[Str.lower k := v]> d.

Definition getitem (d : gmap string string) (k : string) : result string :=
  match d !! Str.lower k with
  | Some v => Ok v
  | None => Raise (KeyError k)
  end.

Definition lookup (d : gmap string string) (k : string) : option string :=
  d !! Str.lower k.

End CaseInsensitiveDict.

(** What [raise_for_status] reads of a [requests.Response]: the status code,
    the headers, and the outcome of the [json()] accessor, which is the
    decoded body, or [None] when the body does not decode and [json()]
    raises a [ValueError]. *)
Record Response : Type := {
  status_code : Z;
  resp_headers : gmap string string;
  resp_json : option pyjson
}.

(** [resp.raise_for_status()] of requests: an error for the codes 400 to
    599, nothing otherwise. *)
Definition Response_raise_for_status (resp : Response) : result unit :=
  if ((400 <=? status_code resp) && (status_code resp <? 600))%bool
  then Raise (RequestsHTTPError (status_code resp))
  else Ok tt.

(** [resp.json()]; the message of the error is the one of the decoder of
    Python 2. *)
Definition Response_json (resp : Response) : result pyjson :=
  match resp_json resp with
  | Some v => Ok v
  | None => Raise (ValueError "No JSON object could be decoded")
  end.

(** [payload[k]] for a string [k] on a decoded JSON value: only a dict can
    be indexed by a string. *)
Definition json_getitem (payload : pyjson) (k : string) : result pyjson :=
  match payload with
  | JDict d => Dict.getitem d k
  | JList _ => Raise (TypeError "list indices must be integers or slices, not str")
  | JStr _ => Raise (TypeError "string indices must be integers")
  | JNone | JBool _ | JNumber _ => Raise (TypeError "object is not subscriptable")
  end.

(** [v == s] for a string literal [s] on a decoded JSON value. *)
Definition json_eq_str (v : pyjson) (s : string) : bool :=
  match v with
  | JStr t => String.eqb t s
  | _ => false
  end.

(** ** HTTPClient.raise_for_status *)

(** The body of the [except Exception] clause: [original] is the exception
    being handled, which the bare [raise] raises again. An exception raised
    by one of the steps before it leaves the clause in its place. *)
Definition translate_error (resp : Response) (original : exn) : result unit :=
  ctype ← CaseInsensitiveDict.getitem (resp_headers resp) "content-type";
  if String.eqb ctype "application/json" then
    payload ← Response_json resp;
    kind ← json_getitem payload "kind";
    if json_eq_str kind "Status" then
      message ← json_getitem payload "message";
      Raise (HTTPError message)
    else Raise original
  else Raise original.

Definition raise_for_status (resp : Response) : result unit :=
  match Response_raise_for_status resp with
  | Ok tt => Ok tt
  | Raise original => translate_error resp original
  end.

(** ** HTTPClient.build_session *)

(** Modelled from the spec: the configuration object ([pykube/config.py] is
    not among the sources). Per the Config input contract, [cluster] has a
    required ["server"] string and an optional ["certificate-authority"]
    file reference; [user] has an optional ["token"] string and optional
    ["client-certificate"] and ["client-key"] file references. A file
    reference exposes a resolvable path through [filename()]. An optional
    entry of the dict is an [option]: [None] is the key not being there. *)
Record FileRef : Type := { filename : string }.

Record Cluster : Type := {
  server : string;
  certificate_authority : option FileRef
}.

Record User : Type := {
  token : option string;
  client_certificate : option FileRef;
  client_key : option FileRef
}.

Record Config : Type := {
  cluster : Cluster;
  user : User
}.

(** [d[k]] on an optional entry of the configuration. *)
Definition cfg_getitem {A} (k : string) (entry : option A) : result A :=
  match entry with
  | Some v => Ok v
  | None => Raise (KeyError k)
  end.

(** The [verify] attribute of a session: a boolean or the path of a CA
    bundle. *)
Inductive Verify : Type :=
  | VerifyBool (b : bool)
  | VerifyPath (path : string).

(** The attributes of a [requests.Session] that [build_session] sets. *)
Record Session : Type := {
  verify : Verify;
  headers : gmap string string;
  cert : option (string * string)
}.

(** [requests.Session()]: verification on, no client certificate, and the
    default headers of requests (the user agent without its version
    number). *)
Definition requests_Session : Session := {|
  verify := VerifyBool true;
  headers :=
    CaseInsensitiveDict.setitem "User-Agent" "python-requests"
      (CaseInsensitiveDict.setitem "Accept-Encoding" "gzip, deflate"
        (CaseInsensitiveDict.setitem "Accept" "*/*"
          (CaseInsensitiveDict.setitem "Connection" "keep-alive" ∅)));
  cert := None
|}.

Definition set_verify (v : Verify) (s : Session) : Session :=
  {| verify := v; headers := headers s; cert := cert s |}.

Definition set_header (k v : string) (s : Session) : Session :=
  {| verify := verify s;
     headers := CaseInsensitiveDict.setitem k v (headers s);
     cert := cert s |}.

Definition set_cert (c : string * string) (s : Session) : Session :=
  {| verify := verify s; headers := headers s; cert := Some c |}.

(** Truth value of a string: it is not empty. *)
Definition str_truthy (s : string) : bool := negb (String.eqb s "").

(** [k in d] on an optional entry of the configuration. *)
Definition cfg_contains {A} (entry : option A) : bool :=
  match entry with Some _ => true | None => false end.

(** ["token" in user and user["token"]]: the second operand is evaluated
    only when the key is there. *)
Definition token_given (u : User) : bool :=
  match token u with
  | Some t => str_truthy t
  | None => false
  end.

(** ["Bearer {}".format(t)] for a string [t]. *)
Definition format_bearer (t : string) : string := "Bearer " +:+ t.

Definition build_session (config : Config) : result Session :=
  let s := requests_Session in
  s ← (if cfg_contains (certificate_authority (cluster config)) then
         ca ← cfg_getitem "certificate-authority"
                (certificate_authority (cluster config));
         Ok (set_verify (VerifyPath (filename ca)) s)
       else Ok s);
  s ← (if token_given (user config) then
         t ← cfg_getitem "token" (token (user config));
         Ok (set_header "Authorization" (format_bearer t) s)
       else Ok s);
  if cfg_contains (client_certificate (user config)) then
    crt ← cfg_getitem "client-certificate" (client_certificate (user config));
    key ← cfg_getitem "client-key" (client_key (user config));
    Ok (set_cert (filename crt, filename key) s)
  else Ok s.

(** ** Views of a keyword-argument dict, for stating the properties *)

(** The string under a key, when there is one. *)
Definition str_arg (kwargs : gmap string pyval) (k : string) : option string :=
  match kwargs !! k with
  | Some (PStr s) => Some s
  | _ => None
  end.

(** The key is absent or holds a string. *)
Definition str_or_absent (kwargs : gmap string pyval) (k : string) : bool :=
  match kwargs !! k with
  | Some (PObj _) => false
  | _ => true
  end.

(** The five keys that [get_kwargs] reads hold strings where present. *)
Definition path_args_typed (kwargs : gmap string pyval) : bool :=
  forallb (str_or_absent kwargs) ["version"; "base"; "namespace"; "pods"; "url"].

(** The versions for which [get_kwargs] has a default base. *)
Definition known_version (v : string) : bool :=
  (String.eqb v "v1" || Str.startswith v "extensions/"
   || Str.startswith v "batch/")%bool.

Definition default_base (v : string) : option string :=
  if String.eqb v "v1" then Some "/api"
  else if (Str.startswith v "extensions/" || Str.startswith v "batch/")%bool
       then Some "/apis"
  else None.

Definition version_of (kwargs : gmap string pyval) : string :=
  default "v1" (str_arg kwargs "version").

Definition base_of (kwargs : gmap string pyval) : option string :=
  match str_arg kwargs "base" with
  | Some b => Some b
  | None => default_base (version_of kwargs)
  end.

(** The [url] argument without its leading slash. *)
Definition url_tail (kwargs : gmap string pyval) : string :=
  let u := default "" (str_arg kwargs "url") in
  if Str.startswith u "/" then Str.drop1 u else u.

Definition named_segment (kwargs : gmap string pyval) (key name : string)
  : list string :=
  match str_arg kwargs key with
  | Some v => [name; v]
  | None => []
  end.

(** The path components that follow the base, in the order of [bits]:
    first those before the url tail, then all of them. *)
Definition front_segments (kwargs : gmap string pyval) : list string :=
  (version_of kwargs :: named_segment kwargs "namespace" "namespaces"
   ++ named_segment kwargs "pods" "pods")%list.

Definition segments (kwargs : gmap string pyval) : list string :=
  (front_segments kwargs ++ [url_tail kwargs])%list.

(** The dict without the four keys that [get_kwargs] pops. *)
Definition passthrough (kwargs : gmap string pyval) : gmap string pyval :=
  delete "pods" (delete "namespace" (delete "base" (delete "version" kwargs))).

(** The dict that [get_kwargs] returns when the base is [b]: the absolute URL
    under ["url"], the four popped keys gone. *)
Definition resolved (self_url b : string) (kwargs : gmap string pyval)
  : gmap string pyval :=
  <["url" := PStr (self_url +:+ posixpath.join_str b (segments kwargs))]>
    (passthrough kwargs).

(** ** Sample calls *)

Definition apps_kwargs : gmap string pyval :=
  <["version" := PStr "apps/v1"]> (<["base" := PStr "/apis"]>
    (<["url" := PStr "/deployments"]> (<["timeout" := PObj 30]> ∅))).

(** [get_kwargs(version="v1", namespace="default", pods="foo", url="/log")] *)
Definition pod_log_kwargs : gmap string pyval :=
  <["version" := PStr "v1"]> (<["namespace" := PStr "default"]>
    (<["pods" := PStr "foo"]> (<["url" := PStr "/log"]> ∅))).

(** A call with a namespace, a pod and a url tail, and the default version
    and base. *)
Definition pod_kwargs (namespace pods url : string) : gmap string pyval :=
  <["namespace" := PStr namespace]>
    (<["pods" := PStr pods]> (<["url" := PStr url]> ∅)).

(** Sample responses: a 404 with a status payload, and error responses
    whose status payload cannot be extracted. *)
Definition json_headers : gmap string string :=
  CaseInsensitiveDict.setitem "Content-Type" "application/json" ∅.

(** The double quote, and the message [pods "foo" not found]. *)
Definition dquote : string := String (ascii_of_nat 34) EmptyString.

Definition not_found_message : string :=
  "pods " +:+ dquote +:+ "foo" +:+ dquote +:+ " not found".

Definition not_found_404 : Response := {|
  status_code := 404;
  resp_headers := json_headers;
  resp_json := Some (JDict (<["kind" := JStr "Status"]>
                             (<["message" := JStr not_found_message]> ∅)))
|}.

Definition malformed_500 : Response := {|
  status_code := 500;
  resp_headers := json_headers;
  resp_json := None
|}.

Definition headerless_500 : Response := {|
  status_code := 500;
  resp_headers := ∅;
  resp_json := None
|}.

Definition kindless_500 : Response := {|
  status_code := 500;
  resp_headers := json_headers;
  resp_json := Some (JDict (<["error" := JStr "boom"]> ∅))
|}.

Definition list_500 : Response := {|
  status_code := 500;
  resp_headers := json_headers;
  resp_json := Some (JList [JStr "boom"])
|}.

Definition messageless_500 : Response := {|
  status_code := 500;
  resp_headers := json_headers;
  resp_json := Some (JDict (<["kind" := JStr "Status"]> ∅))
|}.

Definition html_500 : Response := {|
  status_code := 500;
  resp_headers := CaseInsensitiveDict.setitem "Content-Type" "text/html" ∅;
  resp_json := None
|}.

Definition ok_200 : Response := {|
  status_code := 200;
  resp_headers := json_headers;
  resp_json := Some (JDict ∅)
|}.

(** Sample configurations. *)
Definition sample_cluster : Cluster := {|
  server := "https://x:6443";
  certificate_authority := Some {| filename := "/etc/kube/ca.crt" |}
|}.

Definition token_config : Config := {|
  cluster := sample_cluster;
  user := {| token := Some "s3cr3t";
             client_certificate := None;
             client_key := None |}
|}.

Definition cert_config : Config := {|
  cluster := sample_cluster;
  user := {| token := None;
             client_certificate := Some {| filename := "/etc/kube/me.crt" |};
             client_key := Some {| filename := "/etc/kube/me.key" |} |}
|}.

Definition keyless_config : Config := {|
  cluster := sample_cluster;
  user := {| token := Some "s3cr3t";
             client_certificate := Some {| filename := "/etc/kube/me.crt" |};
             client_key := None |}
|}.

(** ** HTTPClient.__init__ and the verb methods *)

Module Client.

(** The attributes of an [HTTPClient]. *)
Record HTTPClient : Type := {
  config : Config;
  url : string;
  session : Session
}.

(** [__init__(self, config)]: the server of the cluster becomes [self.url],
    then the session is built. *)
Definition init (cfg : Config) : result HTTPClient :=
  let u := server (cluster cfg) in
  s ← build_session cfg;
  Ok {| config := cfg; url := u; session := s |}.

Section Verbs.

(** The transport is not part of the client: [session_call meth s args kw]
    is the call of the method [meth] of the session [s] with the positional
    arguments [args] and the keyword arguments [kw]. It acts on a world [W]
    (the network) and returns a response or raises. *)
Context {W : Type}.
Variable session_call :
  string → Session → list pyval → gmap string pyval → W → result Response * W.

(** The body shared by the eight methods: the method [meth] of
    [self.session] is called with the positional arguments as they are and
    with the keyword arguments that [self.get_kwargs] returns. The keyword
    arguments are resolved first, and the session is called only when that
    has returned. *)
Definition dispatch (meth : string) (self : HTTPClient) (args : list pyval)
    (kwargs : gmap string pyval) (w : W) : result Response * W :=
  match get_kwargs (url self) kwargs with
  | Ok kw => session_call meth (session self) args kw w
  | Raise e => (Raise e, w)
  end.

Definition request := dispatch "request".
Definition get := dispatch "get".
Definition options := dispatch "options".
Definition head := dispatch "head".
Definition post := dispatch "post".
Definition put := dispatch "put".
Definition patch := dispatch "patch".
Definition delete := dispatch "delete".

End Verbs.

End Client.

(** A transport for the examples: the world is the list of the calls made so
    far, and every call is answered by the 404 of [not_found_404]. *)
Definition recorded_call : Type := string * list pyval * gmap string pyval.

Definition recording_transport (meth : string) (s : Session)
    (args : list pyval) (kw : gmap string pyval) (w : list recorded_call)
  : result Response * list recorded_call :=
  (Ok not_found_404, (w ++ [(meth, args, kw)])%list).

(** ** Plain segments *)

(** A segment that is not empty and has no slash at either end. *)
Definition plain (s : string) : bool :=
  (negb (String.eqb s "") && negb (Str.startswith s "/")
   && negb (Str.endswith s "/"))%bool.

(** * Properties *)

(** ** Strings *)

Lemma startswith_sep_cons c s :
  Str.startswith (String c s) "/" = bool_decide (c = "/"%char).
Proof.
  unfold Str.startswith.
  change (String.prefix "/" (String c s))
    with (if ascii_dec "/" c then String.prefix "" s else false).
  destruct (ascii_dec "/" c) as [<-|Hne].
  - rewrite bool_decide_eq_true_2; [|done]. by destruct s.
  - by rewrite bool_decide_eq_false_2.
Qed.

Lemma app_cons c (s t : string) : String c s +:+ t = String c (s +:+ t).
Proof. reflexivity. Qed.

Lemma app_empty_r (s : string) : s +:+ "" = s.
Proof. induction s as [|c s IH]; [done|]. by rewrite app_cons, IH. Qed.

Lemma app_assoc' (s t u : string) : (s +:+ t) +:+ u = s +:+ (t +:+ u).
Proof. induction s as [|c s IH]; [done|]. by rewrite !app_cons, IH. Qed.

Lemma app_eq_empty (s t : string) : s +:+ t = "" → s = "" ∧ t = "".
Proof. destruct s; [done|]. rewrite app_cons. discriminate. Qed.

Lemma startswith_sep_app s t :
  s ≠ "" → Str.startswith (s +:+ t) "/" = Str.startswith s "/".
Proof.
  destruct s as [|c s]; [done|]. intros _.
  by rewrite app_cons, !startswith_sep_cons.
Qed.

(** A suffix test on [s +:+ t] for a one-character suffix only looks at a
    non-empty [t]. *)
Lemma endswith_sep_app s t :
  t ≠ "" → Str.endswith (s +:+ t) "/" = Str.endswith t "/".
Proof.
  intros Ht. induction s as [|c s IH]; [done|].
  rewrite app_cons. cbn [Str.endswith]. rewrite IH.
  destruct (String.eqb_spec (String c (s +:+ t)) "/") as [Heq|_]; [|done].
  injection Heq as _ Heq. by apply app_eq_empty in Heq as [_ ?].
Qed.

Lemma endswith_sep_snoc s : Str.endswith (s +:+ "/") "/" = true.
Proof. by rewrite endswith_sep_app. Qed.

(** ** Dicts *)

Lemma pop_default_spec {V} (d : gmap string V) k dflt :
  Dict.pop_default d k dflt = (default dflt (d !! k), delete k d).
Proof.
  unfold Dict.pop_default. destruct (d !! k) eqn:Hk; [done|].
  by rewrite delete_id.
Qed.

Lemma contains_spec {V} (d : gmap string V) k :
  Dict.contains d k = match d !! k with Some _ => true | None => false end.
Proof.
  unfold Dict.contains. destruct (d !! k) eqn:Hk.
  - by rewrite bool_decide_eq_true_2.
  - rewrite bool_decide_eq_false_2; [done|]. by intros [? ?].
Qed.

(** ** The steps of [get_kwargs] *)

Lemma pop_base_str v (kw : gmap string pyval) :
  pop_base (PStr v) kw =
  match kw !! "base", default_base v with
  | Some b, _ => Ok (b, delete "base" kw)
  | None, Some b => Ok (PStr b, delete "base" kw)
  | None, None => Raise unknown_version
  end.
Proof.
  unfold pop_base, default_base, py_eq_str, py_startswith.
  rewrite !pop_default_spec, contains_spec. unfold Dict.pop.
  destruct (String.eqb v "v1"); [by destruct (kw !! "base")|].
  cbn [mbind result_bind].
  destruct (Str.startswith v "extensions/"); [by destruct (kw !! "base")|].
  cbn [mbind result_bind orb].
  destruct (Str.startswith v "batch/"); by destruct (kw !! "base").
Qed.

Lemma extend_bits_spec key name bits (kw : gmap string pyval) :
  extend_bits key name (bits, kw) =
  Ok ((bits ++ match kw !! key with
               | Some v => [PStr name; v]
               | None => []
               end)%list, delete key kw).
Proof.
  unfold extend_bits. rewrite contains_spec. unfold Dict.pop.
  destruct (kw !! key) eqn:Hk; [done|].
  by rewrite delete_id, app_nil_r.
Qed.

Lemma join_loop_str path (p : list string) :
  posixpath.join_loop path (PStr <$> p) = Ok (posixpath.join_str path p).
Proof.
  revert path. induction p as [|b p IH]; intros path; [done|].
  cbn. apply IH.
Qed.

Lemma join_str_spec a (p : list string) :
  posixpath.join (PStr <$> (a :: p)) = Ok (posixpath.join_str a p).
Proof. cbn. apply join_loop_str. Qed.

Lemma typed_str_arg (kw : gmap string pyval) k :
  str_or_absent kw k = true → kw !! k = PStr <$> str_arg kw k.
Proof.
  unfold str_or_absent, str_arg. by destruct (kw !! k) as [[?|?]|].
Qed.

Lemma path_args_typed_spec (kw : gmap string pyval) :
  path_args_typed kw = true ↔
  str_or_absent kw "version" = true ∧ str_or_absent kw "base" = true ∧
  str_or_absent kw "namespace" = true ∧ str_or_absent kw "pods" = true ∧
  str_or_absent kw "url" = true.
Proof.
  unfold path_args_typed. cbn [forallb].
  rewrite !andb_true_iff. intuition.
Qed.

(** On a dict whose path arguments are strings, and for which a base is
    given or defaulted, [get_kwargs] returns. *)
Lemma get_kwargs_typed self_url (kw : gmap string pyval) b :
  path_args_typed kw = true →
  base_of kw = Some b →
  get_kwargs self_url kw = Ok (resolved self_url b kw).
Proof.
  intros (Hv & Hb & Hn & Hp & Hu)%path_args_typed_spec Hbase.
  unfold resolved.
  apply typed_str_arg in Hv, Hb, Hn, Hp, Hu.
  unfold get_kwargs. rewrite pop_default_spec, Hv.
  assert (default (PStr "v1") (PStr <$> str_arg kw "version")
          = PStr (version_of kw)) as ->.
  { unfold version_of. by destruct (str_arg kw "version"). }
  rewrite pop_base_str, lookup_delete_ne, Hb by done.
  assert (match PStr <$> str_arg kw "base" with
          | Some b0 => Ok (b0, delete "base" (delete "version" kw))
          | None =>
              match default_base (version_of kw) with
              | Some b0 => Ok (PStr b0, delete "base" (delete "version" kw))
              | None => Raise unknown_version
              end
          end = Ok (PStr b, delete "base" (delete "version" kw))) as ->.
  { unfold base_of in Hbase. destruct (str_arg kw "base"); cbn.
    - by injection Hbase as ->.
    - by rewrite Hbase. }
  cbn [mbind result_bind].
  rewrite extend_bits_spec. cbn [mbind result_bind].
  rewrite extend_bits_spec. cbn [mbind result_bind].
  rewrite !lookup_delete_ne, Hn, Hp by done.
  unfold Dict.get. rewrite !lookup_delete_ne, Hu by done.
  fold (passthrough kw).
  assert (default (PStr "") (PStr <$> str_arg kw "url")
          = PStr (default "" (str_arg kw "url"))) as ->.
  { by destruct (str_arg kw "url"). }
  cbn [py_startswith mbind result_bind].
  assert ((if Str.startswith (default "" (str_arg kw "url")) "/"
           then py_drop1 (PStr (default "" (str_arg kw "url")))
           else Ok (PStr (default "" (str_arg kw "url"))))
          = Ok (PStr (url_tail kw))) as ->.
  { unfold url_tail. cbn zeta.
    by destruct (Str.startswith (default "" (str_arg kw "url")) "/"). }
  cbn [mbind result_bind].
  assert (((([PStr b; PStr (version_of kw)] ++
              match PStr <$> str_arg kw "namespace" with
              | Some v => [PStr "namespaces"; v]
              | None => []
              end) ++
             match PStr <$> str_arg kw "pods" with
             | Some v => [PStr "pods"; v]
             | None => []
             end) ++ [PStr (url_tail kw)])%list
          = PStr <$> (b :: segments kw)) as ->.
  { unfold segments, front_segments, named_segment.
    destruct (str_arg kw "namespace"), (str_arg kw "pods"); reflexivity. }
  by rewrite join_str_spec.
Qed.

(** With an unknown version and no base, [get_kwargs] raises, whatever the
    other arguments are. *)
Lemma get_kwargs_unknown self_url (kw : gmap string pyval) v :
  kw !! "version" = Some (PStr v) →
  default_base v = None →
  kw !! "base" = None →
  get_kwargs self_url kw = Raise unknown_version.
Proof.
  intros Hv Hd Hb. unfold get_kwargs.
  rewrite pop_default_spec, Hv.
  change (default (PStr "v1") (Some (PStr v))) with (PStr v).
  by rewrite pop_base_str, lookup_delete_ne, Hb, Hd.
Qed.

Lemma join_loop_not_unknown path p e :
  posixpath.join_loop path p = Raise e → e ≠ unknown_version.
Proof.
  revert path. induction p as [|[b|?] p IH]; intros path; cbn; [done|..].
  - apply IH.
  - by intros [= <-].
Qed.

Lemma join_not_unknown bits e :
  posixpath.join bits = Raise e → e ≠ unknown_version.
Proof.
  destruct bits as [|[a|?] p]; cbn.
  - by intros [= <-].
  - apply join_loop_not_unknown.
  - by intros [= <-].
Qed.

(** Once a base is given, nothing that [get_kwargs] may still raise is the
    unknown-version error. *)
Lemma get_kwargs_base_given self_url (kw : gmap string pyval) v :
  kw !! "version" = Some (PStr v) →
  is_Some (kw !! "base") →
  get_kwargs self_url kw ≠ Raise unknown_version.
Proof.
  intros Hv [bv Hb]. unfold get_kwargs.
  rewrite pop_default_spec, Hv.
  change (default (PStr "v1") (Some (PStr v))) with (PStr v).
  rewrite pop_base_str, lookup_delete_ne, Hb by done.
  cbn [mbind result_bind].
  rewrite extend_bits_spec. cbn [mbind result_bind].
  rewrite extend_bits_spec. cbn [mbind result_bind].
  destruct (Dict.get _ "url" _) as [u|?]; [|done].
  cbn [py_startswith mbind result_bind].
  destruct (Str.startswith u "/"); cbn [py_drop1 mbind result_bind].
  all: match goal with |- context [posixpath.join ?l] =>
         destruct (posixpath.join l) as [?|e] eqn:Hj end; [done|].
  all: cbn; intros [= ->]; by apply join_not_unknown in Hj.
Qed.

(** [get_kwargs] never returns when one of its path arguments is not a
    string, or when no base can be found: a returned dict determines how it
    was built. *)
Lemma get_kwargs_ok_inv self_url (kw kw' : gmap string pyval) :
  get_kwargs self_url kw = Ok kw' →
  path_args_typed kw = true ∧
  ∃ b, base_of kw = Some b ∧ kw' = resolved self_url b kw.
Proof.
  intros H.
  assert (path_args_typed kw = true ∧ is_Some (base_of kw)) as [Ht [b Hb]].
  { revert H. unfold get_kwargs. rewrite pop_default_spec.
    unfold path_args_typed, base_of, version_of, str_arg, str_or_absent.
    cbn [forallb].
    destruct (kw !! "version") as [[v|nv]|] eqn:Hv;
      [| by destruct (kw !! "base") | ].
    all: cbn [from_option id].
    all: match goal with |- context [pop_base (PStr ?x)] => set (ver := x) end.
    all: rewrite pop_base_str, lookup_delete_ne by done.
    all: destruct (kw !! "base") as [[b|nb]|] eqn:Hb;
           [| |destruct (default_base ver); [|done]].
    all: cbn [mbind result_bind];
         rewrite extend_bits_spec; cbn [mbind result_bind];
         rewrite extend_bits_spec; cbn [mbind result_bind];
         rewrite !lookup_delete_ne by done;
         unfold Dict.get; rewrite !lookup_delete_ne by done.
    all: destruct (kw !! "url") as [[u|nu]|]; [| done |].
    all: cbn [from_option id py_startswith mbind result_bind].
    all: match goal with
         | |- context [Str.startswith ?x "/"] => destruct (Str.startswith x "/")
         end.
    all: cbn [py_drop1 mbind result_bind].
    all: destruct (kw !! "namespace") as [[ns|nn]|];
         destruct (kw !! "pods") as [[pd|np]|]; cbn; try done.
    all: rewrite ?join_loop_str; eauto. }
  split; [done|]. exists b. split; [done|].
  rewrite (get_kwargs_typed _ _ b) in H by done. by injection H.
Qed.

Lemma get_kwargs_no_base self_url (kw : gmap string pyval) :
  str_or_absent kw "version" = true →
  str_or_absent kw "base" = true →
  base_of kw = None →
  get_kwargs self_url kw = Raise unknown_version.
Proof.
  intros Hv%typed_str_arg Hb%typed_str_arg. unfold base_of, version_of.
  destruct (str_arg kw "base"); [done|].
  destruct (str_arg kw "version") as [v|]; [|done].
  cbn in *. intros Hd. by eapply get_kwargs_unknown.
Qed.

Lemma get_kwargs_cases self_url (kw : gmap string pyval) :
  path_args_typed kw = true →
  get_kwargs self_url kw =
  match base_of kw with
  | Some b => Ok (resolved self_url b kw)
  | None => Raise unknown_version
  end.
Proof.
  intros Ht. destruct (base_of kw) eqn:Hb.
  - by apply get_kwargs_typed.
  - apply path_args_typed_spec in Ht as (? & ? & _).
    by apply get_kwargs_no_base.
Qed.

Lemma known_version_default_base v :
  known_version v = false ↔ default_base v = None.
Proof.
  unfold known_version, default_base.
  destruct (String.eqb v "v1"), (Str.startswith v "extensions/"),
    (Str.startswith v "batch/"); cbn; split; done.
Qed.

(** ** URL resolution: the base *)

(** C1. In [get_kwargs], for the version [v] of the call (["v1"] when the
    key is absent): with an unknown version, the unknown-version error is
    raised exactly when no ["base"] is supplied; and when the path arguments
    are strings, a call without ["base"] resolves with base ["/api"] for
    ["v1"] and with base ["/apis"] for a version that starts with
    ["extensions/"] or ["batch/"], while a call with a ["base"] resolves
    with that base, whatever the version is. *)
Theorem get_kwargs_base_rule (self_url : string) (kw : gmap string pyval)
    (v : string) :
  str_or_absent kw "version" = true →
  version_of kw = v →
  (known_version v = false →
     (get_kwargs self_url kw = Raise unknown_version ↔ kw !! "base" = None))
  ∧ (path_args_typed kw = true →
       (kw !! "base" = None → v = "v1" →
          get_kwargs self_url kw = Ok (resolved self_url "/api" kw))
       ∧ (kw !! "base" = None →
          Str.startswith v "extensions/" = true
          ∨ Str.startswith v "batch/" = true →
          get_kwargs self_url kw = Ok (resolved self_url "/apis" kw))
       ∧ (∀ b, kw !! "base" = Some (PStr b) →
          get_kwargs self_url kw = Ok (resolved self_url b kw))).
Proof.
  intros Hv <-. split.
  - intros Hk.
    assert (kw !! "version" = Some (PStr (version_of kw))) as Hver.
    { apply typed_str_arg in Hv. rewrite Hv. unfold version_of in *.
      by destruct (str_arg kw "version"). }
    split.
    + intros Hr. destruct (kw !! "base") eqn:Hb; [|done].
      by eapply get_kwargs_base_given in Hr.
    + intros Hb. eapply get_kwargs_unknown; [done| |done].
      by apply known_version_default_base.
  - intros Ht. repeat split.
    + intros Hb Hv1. apply get_kwargs_typed; [done|].
      unfold base_of, str_arg, default_base. by rewrite Hb, Hv1.
    + intros Hb Hpre. apply get_kwargs_typed; [done|].
      unfold base_of, str_arg, default_base. rewrite Hb.
      destruct (String.eqb_spec (version_of kw) "v1") as [Heq|_].
      * rewrite Heq in Hpre. by destruct Hpre.
      * by destruct Hpre as [-> | ->]; rewrite ?orb_true_r.
    + intros b Hb. apply get_kwargs_typed; [done|].
      unfold base_of, str_arg. by rewrite Hb.
Qed.

Lemma get_kwargs_base_rule_witness :
  str_or_absent apps_kwargs "version" = true ∧
  version_of apps_kwargs = "apps/v1" ∧
  known_version "apps/v1" = false ∧
  path_args_typed apps_kwargs = true ∧
  get_kwargs "https://x:6443" apps_kwargs
  = Ok (resolved "https://x:6443" "/apis" apps_kwargs) ∧
  get_kwargs "https://x:6443" (delete "base" apps_kwargs)
  = Raise unknown_version.
Proof.
  do 4 (split; [reflexivity|]). split.
  - apply (get_kwargs_base_rule "https://x:6443" apps_kwargs "apps/v1");
      reflexivity.
  - apply (get_kwargs_base_rule "https://x:6443" (delete "base" apps_kwargs)
             "apps/v1"); reflexivity.
Defined.

(** ** URL resolution: the path *)

(** C5. For the server ["https://x:6443"], the call with version ["v1"],
    namespace ["default"], pods ["foo"] and url ["/log"] returns the URL
    ["https://x:6443/api/v1/namespaces/default/pods/foo/log"]: the server
    followed by the join of the base ["/api"] with, in this order, the
    version, ["namespaces"] and the namespace, ["pods"] and the pod, and
    the url without its leading slash. *)
Theorem get_kwargs_pod_log :
  get_kwargs "https://x:6443" pod_log_kwargs
  = Ok {[ "url" :=
            PStr "https://x:6443/api/v1/namespaces/default/pods/foo/log" ]}
  ∧ base_of pod_log_kwargs = Some "/api"
  ∧ segments pod_log_kwargs
    = ["v1"; "namespaces"; "default"; "pods"; "foo"; "log"]
  ∧ "https://x:6443" +:+
      posixpath.join_str "/api"
        ["v1"; "namespaces"; "default"; "pods"; "foo"; "log"]
    = "https://x:6443/api/v1/namespaces/default/pods/foo/log".
Proof.
  split; [|by vm_compute].
  rewrite (get_kwargs_typed _ _ "/api") by reflexivity.
  by vm_compute.
Qed.

(** C10. The test on the version is a literal prefix test that includes the
    slash: the versions ["extensions"], ["batch"] and [""] have no default
    base, and [get_kwargs] raises the unknown-version error for them when
    no ["base"] is supplied. *)
Theorem get_kwargs_prefix_needs_slash (self_url : string)
    (kw : gmap string pyval) (v : string) :
  v = "extensions" ∨ v = "batch" ∨ v = "" →
  kw !! "version" = Some (PStr v) →
  kw !! "base" = None →
  known_version v = false ∧ get_kwargs self_url kw = Raise unknown_version.
Proof.
  intros Hin Hv Hb.
  assert (known_version v = false) as Hk.
  { by destruct Hin as [->|[->| ->]]. }
  split; [done|].
  eapply get_kwargs_unknown; [done| |done].
  by apply known_version_default_base.
Qed.

Lemma get_kwargs_prefix_needs_slash_witness :
  known_version "extensions" = false ∧
  get_kwargs "https://x:6443"
    (<["version" := PStr "extensions"]> (<["url" := PStr "/jobs"]> ∅))
  = Raise unknown_version.
Proof.
  apply (get_kwargs_prefix_needs_slash "https://x:6443" _ "extensions").
  - left. reflexivity.
  - reflexivity.
  - reflexivity.
Defined.

(** ** URL resolution: what is returned *)

(** C6. A dict returned by [get_kwargs] has none of the keys ["version"],
    ["base"], ["namespace"] and ["pods"]; its ["url"] is the server URL
    followed by the join of the base and the segments; and under every
    other key it has what the input has. *)
Theorem get_kwargs_frame (self_url : string) (kw kw' : gmap string pyval) :
  get_kwargs self_url kw = Ok kw' →
  kw' !! "version" = None ∧ kw' !! "base" = None
  ∧ kw' !! "namespace" = None ∧ kw' !! "pods" = None
  ∧ (∃ b, base_of kw = Some b ∧
          kw' !! "url"
          = Some (PStr (self_url +:+ posixpath.join_str b (segments kw))))
  ∧ (∀ k, k ≠ "version" → k ≠ "base" → k ≠ "namespace" → k ≠ "pods" →
          k ≠ "url" → kw' !! k = kw !! k).
Proof.
  intros (_ & b & Hb & ->)%get_kwargs_ok_inv.
  unfold resolved, passthrough.
  repeat split.
  - rewrite lookup_insert_ne by done. rewrite !lookup_delete.
    repeat case_decide; done.
  - rewrite lookup_insert_ne by done. rewrite !lookup_delete.
    repeat case_decide; done.
  - rewrite lookup_insert_ne by done. rewrite !lookup_delete.
    repeat case_decide; done.
  - rewrite lookup_insert_ne by done. rewrite !lookup_delete.
    repeat case_decide; done.
  - exists b. split; [done|]. by rewrite lookup_insert_eq.
  - intros k ? ? ? ? ?. rewrite lookup_insert_ne by done.
    by rewrite !lookup_delete_ne.
Qed.

Lemma get_kwargs_frame_witness :
  let kw' := resolved "https://x:6443" "/apis" apps_kwargs in
  kw' !! "version" = None ∧ kw' !! "base" = None
  ∧ kw' !! "namespace" = None ∧ kw' !! "pods" = None
  ∧ (∃ b, base_of apps_kwargs = Some b ∧
          kw' !! "url"
          = Some (PStr ("https://x:6443" +:+
                        posixpath.join_str b (segments apps_kwargs))))
  ∧ (∀ k, k ≠ "version" → k ≠ "base" → k ≠ "namespace" → k ≠ "pods" →
          k ≠ "url" → kw' !! k = apps_kwargs !! k).
Proof.
  apply (get_kwargs_frame "https://x:6443" apps_kwargs). reflexivity.
Defined.

(** ** Joining *)

Lemma app_nonempty_l (s t : string) : s ≠ "" → s +:+ t ≠ "".
Proof. intros Hs Heq. by apply app_eq_empty in Heq as [? _]. Qed.

Lemma app_nonempty_r (s t : string) : t ≠ "" → s +:+ t ≠ "".
Proof. intros Ht Heq. by apply app_eq_empty in Heq as [_ ?]. Qed.

Lemma join_step_nonempty path b :
  path ≠ "" ∨ b ≠ "" → posixpath.join_step path b ≠ "".
Proof.
  unfold posixpath.join_step, posixpath.sep. intros Hne.
  destruct (Str.startswith b "/") eqn:Hs.
  - intros ->. done.
  - destruct (_ || _)%bool.
    + destruct Hne; [by apply app_nonempty_l|by apply app_nonempty_r].
    + apply app_nonempty_r. by apply app_nonempty_l.
Qed.

Lemma join_str_nonempty a (p : list string) :
  a ≠ "" ∨ Exists (λ b, b ≠ "") p → posixpath.join_str a p ≠ "".
Proof.
  unfold posixpath.join_str. revert a.
  induction p as [|b p IH]; intros a Hne; cbn.
  - destruct Hne as [?|Hex]; [done|]. by apply Exists_nil in Hex.
  - apply IH. destruct Hne as [Ha|Hex].
    + left. apply join_step_nonempty. by left.
    + apply Exists_cons in Hex as [Hb|Hex]; [|by right].
      left. apply join_step_nonempty. by right.
Qed.

(** Joining the empty component leaves a path that ends with the
    separator, unless the path is empty. *)
Lemma join_step_empty path :
  posixpath.join_step path "" =
  if (String.eqb path "" || Str.endswith path "/")%bool then path
  else path +:+ "/".
Proof.
  unfold posixpath.join_step, posixpath.sep.
  change (Str.startswith "" "/") with false. cbv iota.
  destruct (_ || _)%bool; by rewrite ?app_empty_r.
Qed.

Lemma join_step_empty_endswith path :
  path ≠ "" → Str.endswith (posixpath.join_step path "") "/" = true.
Proof.
  intros Hne. rewrite join_step_empty.
  destruct (String.eqb_spec path "") as [?|_]; [done|]. cbn [orb].
  destruct (Str.endswith path "/") eqn:He; [done|].
  apply endswith_sep_snoc.
Qed.

(** C9. When ["url"] is absent or the empty string, [get_kwargs] joins an
    empty last component: the path is the join of the base and the segments
    before the url, extended by the empty component, so that, as soon as
    one of these is not empty, the returned URL ends with ["/"]. *)
Theorem get_kwargs_empty_tail (self_url : string) (kw : gmap string pyval)
    (b : string) :
  path_args_typed kw = true →
  base_of kw = Some b →
  kw !! "url" = None ∨ kw !! "url" = Some (PStr "") →
  b ≠ "" ∨ version_of kw ≠ ""
  ∨ is_Some (kw !! "namespace") ∨ is_Some (kw !! "pods") →
  ∃ path,
    get_kwargs self_url kw
    = Ok (<["url" := PStr (self_url +:+ path)]> (passthrough kw))
    ∧ path = posixpath.join_step
               (posixpath.join_str b (front_segments kw)) ""
    ∧ Str.endswith (self_url +:+ path) "/" = true.
Proof.
  intros Ht Hb Hu Hne. eexists. split; [|split; [reflexivity|]].
  - rewrite (get_kwargs_typed _ _ b) by done. unfold resolved, segments.
    assert (url_tail kw = "") as ->.
    { unfold url_tail, str_arg. by destruct Hu as [-> | ->]. }
    unfold posixpath.join_str. by rewrite fold_left_app.
  - assert (posixpath.join_str b (front_segments kw) ≠ "") as Hp.
    { apply join_str_nonempty.
      destruct Hne as [?|Hne]; [by left|right].
      unfold front_segments. apply Exists_cons.
      destruct Hne as [?|Hne]; [by left|right].
      apply path_args_typed_spec in Ht as (_ & _ & Hn & Hp & _).
      apply typed_str_arg in Hn, Hp. unfold named_segment.
      apply Exists_app.
      destruct Hne as [[x Hx]|[x Hx]].
      - left. rewrite Hx in Hn. destruct (str_arg kw "namespace"); [|done].
        by apply Exists_cons_hd.
      - right. rewrite Hx in Hp. destruct (str_arg kw "pods"); [|done].
        by apply Exists_cons_hd. }
    rewrite endswith_sep_app.
    + by apply join_step_empty_endswith.
    + apply join_step_nonempty. by left.
Qed.

Lemma get_kwargs_empty_tail_witness :
  ∃ path,
    get_kwargs "https://x:6443" ∅
    = Ok (<["url" := PStr ("https://x:6443" +:+ path)]> (passthrough ∅))
    ∧ path = posixpath.join_step
               (posixpath.join_str "/api" (front_segments ∅)) ""
    ∧ Str.endswith ("https://x:6443" +:+ path) "/" = true.
Proof.
  apply (get_kwargs_empty_tail "https://x:6443" ∅ "/api").
  - reflexivity.
  - reflexivity.
  - left. reflexivity.
  - left. discriminate.
Defined.

(** The default call ends in ["/api/v1/"]; with an empty base and an empty
    version there is nothing to end with a separator. *)
Example get_kwargs_default_call :
  get_kwargs "https://x:6443" ∅
  = Ok {[ "url" := PStr "https://x:6443/api/v1/" ]}.
Proof. by vm_compute. Qed.

Example get_kwargs_no_segment :
  get_kwargs "https://x:6443"
    (<["version" := PStr ""]> (<["base" := PStr ""]> ∅))
  = Ok {[ "url" := PStr "https://x:6443" ]}.
Proof. by vm_compute. Qed.

(** ** Slashes in the segments *)

(** A trailing separator on a component that is followed by another one
    makes no difference, when the component is not empty and does not
    already end with a separator. *)
Lemma join_step_after_trailing r b :
  r ≠ "" → Str.endswith r "/" = false →
  posixpath.join_step (r +:+ "/") b = posixpath.join_step r b.
Proof.
  intros Hne He. unfold posixpath.join_step, posixpath.sep.
  destruct (Str.startswith b "/"); [done|].
  rewrite endswith_sep_snoc, orb_true_r, He, orb_false_r.
  destruct (String.eqb_spec r "") as [?|_]; [done|].
  by rewrite app_assoc'.
Qed.

Lemma join_step_trailing path s :
  s ≠ "" →
  posixpath.join_step path (s +:+ "/") = posixpath.join_step path s +:+ "/".
Proof.
  intros Hne. unfold posixpath.join_step, posixpath.sep.
  rewrite startswith_sep_app by done.
  destruct (Str.startswith s "/"); [done|].
  destruct (_ || _)%bool; by rewrite !app_assoc'.
Qed.

Lemma join_step_endswith path s :
  s ≠ "" →
  Str.endswith (posixpath.join_step path s) "/" = Str.endswith s "/".
Proof.
  intros Hne. unfold posixpath.join_step, posixpath.sep.
  destruct (Str.startswith s "/"); [done|].
  destruct (_ || _)%bool; by rewrite !endswith_sep_app.
Qed.

(** [posixpath.join] on a list of strings; the empty list does not occur. *)
Lemma join_list_trailing (l1 : list string) s b (l2 : list string) a :
  s ≠ "" → Str.endswith s "/" = false →
  match (l1 ++ (s +:+ "/") :: b :: l2)%list with
  | [] => a
  | x :: p => posixpath.join_str x p
  end =
  match (l1 ++ s :: b :: l2)%list with
  | [] => a
  | x :: p => posixpath.join_str x p
  end.
Proof.
  intros Hne He. destruct l1 as [|x l1]; cbn.
  - by rewrite join_step_after_trailing.
  - unfold posixpath.join_str. rewrite !fold_left_app. cbn. f_equal.
    rewrite join_step_trailing by done.
    apply join_step_after_trailing.
    + apply join_step_nonempty. by right.
    + by rewrite join_step_endswith.
Qed.

(** The views on a dict in which one key has been set to a string. *)
Lemma str_arg_insert (kw : gmap string pyval) k s k' :
  str_arg (<[k := PStr s]> kw) k' =
  if decide (k = k') then Some s else str_arg kw k'.
Proof.
  unfold str_arg. rewrite lookup_insert. by case_decide.
Qed.

Lemma str_or_absent_insert (kw : gmap string pyval) k s k' :
  str_or_absent kw k' = true → str_or_absent (<[k := PStr s]> kw) k' = true.
Proof.
  unfold str_or_absent. rewrite lookup_insert. by case_decide.
Qed.

Lemma path_args_typed_insert (kw : gmap string pyval) k s :
  path_args_typed kw = true → path_args_typed (<[k := PStr s]> kw) = true.
Proof.
  rewrite !path_args_typed_spec. intros (? & ? & ? & ? & ?).
  repeat split; by apply str_or_absent_insert.
Qed.

Lemma passthrough_lookup (kw : gmap string pyval) k :
  passthrough kw !! k =
  if decide (k = "version" ∨ k = "base" ∨ k = "namespace" ∨ k = "pods")
  then None else kw !! k.
Proof.
  unfold passthrough. rewrite !lookup_delete.
  repeat case_decide; naive_solver.
Qed.

Lemma resolved_insert_eq self_url b b' (kw : gmap string pyval) k x y :
  k = "version" ∨ k = "base" ∨ k = "namespace" ∨ k = "pods" ∨ k = "url" →
  posixpath.join_str b (segments (<[k := x]> kw))
  = posixpath.join_str b' (segments (<[k := y]> kw)) →
  resolved self_url b (<[k := x]> kw) = resolved self_url b' (<[k := y]> kw).
Proof.
  intros Hk Hj. unfold resolved. rewrite Hj. apply map_eq. intros i.
  rewrite !lookup_insert. case_decide; [done|].
  rewrite !passthrough_lookup. case_decide; [done|].
  rewrite !lookup_insert_ne; [done|naive_solver..].
Qed.

(** Unfold the views on an updated dict down to the cases on its keys. *)
Ltac views_of_insert :=
  unfold segments, front_segments, named_segment, url_tail, base_of,
    version_of;
  rewrite !str_arg_insert;
  repeat (case_decide; try done).

Lemma get_kwargs_url_slash self_url (kw : gmap string pyval) u :
  path_args_typed kw = true →
  Str.startswith u "/" = false →
  get_kwargs self_url (<["url" := PStr ("/" +:+ u)]> kw)
  = get_kwargs self_url (<["url" := PStr u]> kw).
Proof.
  intros Ht Hu.
  rewrite !get_kwargs_cases by by apply path_args_typed_insert.
  assert (∀ x, base_of (<["url" := PStr x]> kw) = base_of kw) as Hb.
  { intros x. by views_of_insert. }
  rewrite !Hb. destruct (base_of kw) as [b|]; [|done].
  f_equal. apply resolved_insert_eq; [naive_solver|].
  f_equal. views_of_insert. cbn [from_option id].
  change ("/" +:+ u) with (String "/" u).
  by rewrite Hu, startswith_sep_cons, bool_decide_eq_true_2.
Qed.

Lemma get_kwargs_trailing_slash self_url (kw : gmap string pyval) k s :
  path_args_typed kw = true →
  k = "base" ∨ k = "namespace" ∨ k = "pods"
  ∨ (k = "version" ∧ is_Some (kw !! "base")) →
  s ≠ "" → Str.endswith s "/" = false →
  get_kwargs self_url (<[k := PStr (s +:+ "/")]> kw)
  = get_kwargs self_url (<[k := PStr s]> kw).
Proof.
  intros Ht Hk Hne He.
  rewrite !get_kwargs_cases by by apply path_args_typed_insert.
  destruct Hk as [->|[->|[->|[-> [bv Hbv]]]]].
  - assert (∀ x, base_of (<["base" := PStr x]> kw) = Some x) as Hb.
    { intros x. by views_of_insert. }
    rewrite !Hb. f_equal. apply resolved_insert_eq; [naive_solver|].
    assert (∀ x, segments (<["base" := PStr x]> kw) = segments kw) as Hs.
    { intros x. by views_of_insert. }
    rewrite !Hs. unfold segments, front_segments. cbn [app].
    by apply (join_list_trailing [] s _ _ "").
  - assert (∀ x, base_of (<["namespace" := PStr x]> kw) = base_of kw) as Hb.
    { intros x. by views_of_insert. }
    rewrite !Hb. destruct (base_of kw) as [b|]; [|done].
    f_equal. apply resolved_insert_eq; [naive_solver|].
    views_of_insert. set (v := default "v1" _).
    destruct (str_arg kw "pods") as [p|].
    + by apply (join_list_trailing [b; v; "namespaces"] s "pods" [p; _] "").
    + by apply (join_list_trailing [b; v; "namespaces"] s _ [] "").
  - assert (∀ x, base_of (<["pods" := PStr x]> kw) = base_of kw) as Hb.
    { intros x. by views_of_insert. }
    rewrite !Hb. destruct (base_of kw) as [b|]; [|done].
    f_equal. apply resolved_insert_eq; [naive_solver|].
    views_of_insert. set (v := default "v1" _).
    destruct (str_arg kw "namespace") as [n|].
    + by apply (join_list_trailing [b; v; "namespaces"; n; "pods"] s _ [] "").
    + by apply (join_list_trailing [b; v; "pods"] s _ [] "").
  - apply path_args_typed_spec in Ht as (_ & Hb%typed_str_arg & _).
    rewrite Hbv in Hb. destruct (str_arg kw "base") as [b|] eqn:Hsb; [|done].
    assert (∀ x, base_of (<["version" := PStr x]> kw) = Some b) as Hb'.
    { intros x. views_of_insert. by rewrite Hsb. }
    rewrite !Hb'. f_equal. apply resolved_insert_eq; [naive_solver|].
    views_of_insert. cbn [from_option id].
    destruct (str_arg kw "namespace") as [n|], (str_arg kw "pods") as [p|].
    + by apply (join_list_trailing [b] s "namespaces" [n; "pods"; p; _] "").
    + by apply (join_list_trailing [b] s "namespaces" [n; _] "").
    + by apply (join_list_trailing [b] s "pods" [p; _] "").
    + by apply (join_list_trailing [b] s _ [] "").
Qed.

(** C2, as the code has it. On a call whose path arguments are strings,
    [get_kwargs] returns the same for a url with and without one leading
    slash (when the rest of the url does not start with a slash), and for
    a base, namespace or pods with and without one trailing slash (when it
    is not empty and does not already end with a slash); the same holds
    for the version when a base is supplied. *)
Theorem get_kwargs_slash_rule (self_url : string) (kw : gmap string pyval) :
  path_args_typed kw = true →
  (∀ u, Str.startswith u "/" = false →
     get_kwargs self_url (<["url" := PStr ("/" +:+ u)]> kw)
     = get_kwargs self_url (<["url" := PStr u]> kw))
  ∧ (∀ k s,
       k = "base" ∨ k = "namespace" ∨ k = "pods"
       ∨ (k = "version" ∧ is_Some (kw !! "base")) →
       s ≠ "" → Str.endswith s "/" = false →
       get_kwargs self_url (<[k := PStr (s +:+ "/")]> kw)
       = get_kwargs self_url (<[k := PStr s]> kw)).
Proof.
  intros Ht. split.
  - intros u Hu. by apply get_kwargs_url_slash.
  - intros k s Hk Hne He. by apply get_kwargs_trailing_slash.
Qed.

Lemma get_kwargs_slash_rule_witness :
  path_args_typed (pod_kwargs "default" "foo" "log") = true
  ∧ get_kwargs "https://x:6443"
      (<["url" := PStr "/log"]> (pod_kwargs "default" "foo" "log"))
    = get_kwargs "https://x:6443"
        (<["url" := PStr "log"]> (pod_kwargs "default" "foo" "log"))
  ∧ get_kwargs "https://x:6443"
      (<["namespace" := PStr "default/"]> (pod_kwargs "default" "foo" "log"))
    = get_kwargs "https://x:6443"
        (<["namespace" := PStr "default"]> (pod_kwargs "default" "foo" "log"))
  ∧ get_kwargs "https://x:6443"
      (<["namespace" := PStr "default"]> (pod_kwargs "default" "foo" "log"))
    = Ok {[ "url" :=
              PStr "https://x:6443/api/v1/namespaces/default/pods/foo/log" ]}.
Proof.
  destruct (get_kwargs_slash_rule "https://x:6443"
              (pod_kwargs "default" "foo" "log") eq_refl) as [Hurl Htrail].
  split; [reflexivity|]. split; [|split].
  - apply (Hurl "log"). reflexivity.
  - apply (Htrail "namespace" "default").
    + right. left. reflexivity.
    + discriminate.
    + reflexivity.
  - reflexivity.
Defined.

(** C2, as the claim has it, fails: a leading slash on the namespace drops
    the base and the version from the URL, a trailing slash on the url
    stays in the URL, and a base without a leading slash is glued to the
    server. *)
Lemma get_kwargs_slash_sensitive :
  url_of (get_kwargs "https://x:6443" (pod_kwargs "default" "foo" "/log"))
  = Some (PStr "https://x:6443/api/v1/namespaces/default/pods/foo/log")
  ∧ url_of (get_kwargs "https://x:6443" (pod_kwargs "/default" "foo" "/log"))
    = Some (PStr "https://x:6443/default/pods/foo/log")
  ∧ url_of (get_kwargs "https://x:6443" (pod_kwargs "default" "foo" "/log/"))
    = Some (PStr "https://x:6443/api/v1/namespaces/default/pods/foo/log/")
  ∧ url_of (get_kwargs "https://x:6443"
              (<["base" := PStr "api"]> (pod_kwargs "default" "foo" "/log")))
    = Some (PStr "https://x:6443api/v1/namespaces/default/pods/foo/log")
  ∧ url_of (get_kwargs "https://x:6443" (pod_kwargs "/default" "foo" "/log"))
    ≠ url_of (get_kwargs "https://x:6443" (pod_kwargs "default" "foo" "/log")).
Proof. repeat split; try reflexivity. vm_compute. discriminate. Qed.

(** ** Error translation *)

Lemma raise_for_status_success resp :
  Response_raise_for_status resp = Ok tt → raise_for_status resp = Ok tt.
Proof. unfold raise_for_status. by intros ->. Qed.

(** X8. The two fallbacks that the handler has: another content type, and
    a payload whose kind is not ["Status"], give the original error. *)
Lemma raise_for_status_fallback resp original :
  Response_raise_for_status resp = Raise original →
  (∀ ctype, CaseInsensitiveDict.lookup (resp_headers resp) "content-type"
            = Some ctype →
            ctype ≠ "application/json" →
            raise_for_status resp = Raise original)
  ∧ (∀ payload kind,
       CaseInsensitiveDict.lookup (resp_headers resp) "content-type"
       = Some "application/json" →
       resp_json resp = Some payload →
       json_getitem payload "kind" = Ok kind →
       json_eq_str kind "Status" = false →
       raise_for_status resp = Raise original).
Proof.
  intros Hr. unfold raise_for_status, translate_error,
    CaseInsensitiveDict.lookup, CaseInsensitiveDict.getitem, Response_json.
  rewrite Hr. split.
  - intros ctype -> Hne. cbn [mbind result_bind].
    by destruct (String.eqb_spec ctype "application/json").
  - intros payload kind -> -> Hk Hs. cbn [mbind result_bind].
    rewrite String.eqb_refl. cbn [mbind result_bind].
    rewrite Hk. cbn [mbind result_bind]. by rewrite Hs.
Qed.

(** C3 fails on the code: an exception raised while the status payload is
    being extracted leaves the handler in place of the original error. The
    response has status 500 and so [resp.raise_for_status()] raises the
    transport error; what [raise_for_status] raises is the [ValueError] of
    a body that does not decode, the [KeyError] of a missing content type,
    of a missing ["kind"] or of a missing ["message"], or the [TypeError]
    of a payload that is a list. *)
Theorem raise_for_status_shadows_original :
  Response_raise_for_status malformed_500 = Raise (RequestsHTTPError 500)
  ∧ raise_for_status malformed_500
    = Raise (ValueError "No JSON object could be decoded")
  ∧ raise_for_status headerless_500 = Raise (KeyError "content-type")
  ∧ raise_for_status kindless_500 = Raise (KeyError "kind")
  ∧ raise_for_status messageless_500 = Raise (KeyError "message")
  ∧ raise_for_status list_500
    = Raise (TypeError "list indices must be integers or slices, not str")
  ∧ raise_for_status html_500 = Raise (RequestsHTTPError 500).
Proof. repeat split; reflexivity. Qed.

(** C4. [raise_for_status] returns for a response with a 2xx status; and
    for a response on which [resp.raise_for_status()] raises, whose
    content type is ["application/json"] and whose body decodes to a dict
    with ["kind"] equal to ["Status"] and a ["message"], it raises
    [HTTPError] with that message as its only argument. *)
Theorem raise_for_status_translation (resp : Response) :
  (200 ≤ status_code resp < 300 → raise_for_status resp = Ok tt)
  ∧ (∀ original d message,
       Response_raise_for_status resp = Raise original →
       CaseInsensitiveDict.lookup (resp_headers resp) "content-type"
       = Some "application/json" →
       resp_json resp = Some (JDict d) →
       d !! "kind" = Some (JStr "Status") →
       d !! "message" = Some message →
       raise_for_status resp = Raise (HTTPError message)).
Proof.
  split.
  - intros [Hlo Hhi]. apply raise_for_status_success.
    unfold Response_raise_for_status.
    destruct (Z.leb_spec 400 (status_code resp)); [lia|done].
  - intros original d message Hr Hc Hj Hk Hm.
    unfold raise_for_status, translate_error, CaseInsensitiveDict.lookup,
      CaseInsensitiveDict.getitem, Response_json in *.
    rewrite Hr, Hc, Hj. cbn [mbind result_bind json_getitem].
    rewrite String.eqb_refl. unfold Dict.getitem.
    rewrite Hk. cbn [mbind result_bind json_eq_str].
    rewrite String.eqb_refl. by rewrite Hm.
Qed.

Lemma raise_for_status_translation_witness :
  raise_for_status ok_200 = Ok tt
  ∧ raise_for_status not_found_404
    = Raise (HTTPError (JStr not_found_message)).
Proof.
  split.
  - apply (raise_for_status_translation ok_200). cbn. lia.
  - apply (proj2 (raise_for_status_translation not_found_404)
             (RequestsHTTPError 404)
             (<["kind" := JStr "Status"]>
                (<["message" := JStr not_found_message]> ∅)));
      reflexivity.
Defined.

(** ** Session construction *)

(** C7. When the user has a ["client-certificate"], [build_session] sets
    the [cert] of the session to the pair of the file names of the
    certificate and of the ["client-key"] when there is one, and raises the
    [KeyError] of the missing ["client-key"] when there is none. *)
Theorem build_session_client_cert (config : Config) (crt : FileRef) :
  client_certificate (user config) = Some crt →
  (∀ key, client_key (user config) = Some key →
     ∃ s, build_session config = Ok s
          ∧ cert s = Some (filename crt, filename key))
  ∧ (client_key (user config) = None →
     build_session config = Raise (KeyError "client-key")).
Proof.
  intros Hc. unfold build_session. rewrite Hc.
  destruct (certificate_authority (cluster config)) as [ca|];
    destruct (token_given (user config)) eqn:Ht;
    unfold token_given in Ht;
    destruct (token (user config)) as [t|]; try discriminate;
    cbn [cfg_contains cfg_getitem mbind result_bind].
  all: split; [intros key ->; cbn; eauto | by intros ->].
Qed.

Lemma build_session_client_cert_witness :
  (∃ s, build_session cert_config = Ok s
        ∧ cert s = Some ("/etc/kube/me.crt", "/etc/kube/me.key"))
  ∧ build_session keyless_config = Raise (KeyError "client-key").
Proof.
  split.
  - apply (proj1 (build_session_client_cert cert_config
                    {| filename := "/etc/kube/me.crt" |} eq_refl)
             {| filename := "/etc/kube/me.key" |}).
    reflexivity.
  - apply (proj2 (build_session_client_cert keyless_config
                    {| filename := "/etc/kube/me.crt" |} eq_refl)).
    reflexivity.
Defined.

(** The headers of a built session: those of a fresh session, with the
    bearer token when there is a non-empty one. *)
Lemma build_session_headers (config : Config) (s : Session) :
  build_session config = Ok s →
  headers s =
  match token (user config) with
  | Some t =>
      if str_truthy t
      then CaseInsensitiveDict.setitem "Authorization" (format_bearer t)
             (headers requests_Session)
      else headers requests_Session
  | None => headers requests_Session
  end.
Proof.
  unfold build_session, token_given.
  destruct (certificate_authority (cluster config)) as [ca|];
    destruct (token (user config)) as [t|];
    try destruct (str_truthy t);
    destruct (client_certificate (user config)) as [crt|];
    try destruct (client_key (user config)) as [key|];
    cbn; by intros [= <-].
Qed.

Lemma default_headers_no_authorization :
  CaseInsensitiveDict.lookup (headers requests_Session) "Authorization" = None.
Proof. reflexivity. Qed.

Lemma str_truthy_spec t : str_truthy t = true ↔ t ≠ "".
Proof.
  unfold str_truthy. destruct (String.eqb_spec t ""); cbn; split; done.
Qed.

(** C8. A session that [build_session] returns has the ["Authorization"]
    header ["Bearer "] followed by the token when the user has a token that
    is not empty, and has no ["Authorization"] header when the token is
    absent or empty: the header is there exactly when there is a non-empty
    token. *)
Theorem build_session_authorization (config : Config) (s : Session) :
  build_session config = Ok s →
  (∀ t, token (user config) = Some t → t ≠ "" →
     CaseInsensitiveDict.lookup (headers s) "Authorization"
     = Some ("Bearer " +:+ t))
  ∧ (token (user config) = None ∨ token (user config) = Some "" →
     CaseInsensitiveDict.lookup (headers s) "Authorization" = None)
  ∧ (is_Some (CaseInsensitiveDict.lookup (headers s) "Authorization")
     ↔ ∃ t, token (user config) = Some t ∧ t ≠ "").
Proof.
  intros Hs%build_session_headers. rewrite Hs. clear Hs.
  destruct (token (user config)) as [t|].
  - destruct (str_truthy t) eqn:Ht.
    + apply str_truthy_spec in Ht. split; [|split].
      * intros ? [= <-] _. apply lookup_insert_eq.
      * intros [[=]|[= ->]]. done.
      * split; [by eauto|]. intros _. eexists. apply lookup_insert_eq.
    + assert (t = "") as ->.
      { destruct (decide (t = "")) as [|Hne]; [done|].
        apply str_truthy_spec in Hne. congruence. }
      split; [|split].
      * by intros ? [= <-] ?.
      * intros _. apply default_headers_no_authorization.
      * rewrite default_headers_no_authorization. split.
        -- by intros [? [=]].
        -- by intros (? & [= <-] & ?).
  - split; [|split].
    + by intros ? [=].
    + intros _. apply default_headers_no_authorization.
    + rewrite default_headers_no_authorization. split.
      * by intros [? [=]].
      * by intros (? & [=] & ?).
Qed.

Lemma build_session_authorization_witness :
  ∃ s, build_session token_config = Ok s
       ∧ CaseInsensitiveDict.lookup (headers s) "Authorization"
         = Some "Bearer s3cr3t".
Proof.
  eexists. split; [reflexivity|].
  eapply (build_session_authorization token_config).
  - reflexivity.
  - reflexivity.
  - discriminate.
Defined.

(** * Further properties of the code *)

(** ** URL resolution *)

(** X1. Leaving ["version"] out is the same as passing ["v1"]: the two calls
    return the same dict or raise the same exception, whatever the other
    arguments are. *)
Theorem get_kwargs_version_default (self_url : string)
    (kw : gmap string pyval) :
  kw !! "version" = None →
  get_kwargs self_url (<["version" := PStr "v1"]> kw) = get_kwargs self_url kw.
Proof.
  intros Hv. unfold get_kwargs.
  rewrite !pop_default_spec, lookup_insert_eq, Hv.
  by rewrite delete_insert_id, delete_id.
Qed.

Lemma get_kwargs_version_default_witness :
  get_kwargs "https://x:6443"
    (<["version" := PStr "v1"]> (pod_kwargs "default" "foo" "/log"))
  = get_kwargs "https://x:6443" (pod_kwargs "default" "foo" "/log").
Proof.
  apply (get_kwargs_version_default "https://x:6443"
           (pod_kwargs "default" "foo" "/log")).
  reflexivity.
Defined.

Lemma str_arg_insert_ne (kw : gmap string pyval) k x k' :
  k ≠ k' → str_arg (<[k := x]> kw) k' = str_arg kw k'.
Proof. intros Hne. unfold str_arg. by rewrite lookup_insert_ne. Qed.

Lemma str_or_absent_insert_ne (kw : gmap string pyval) k x k' :
  k ≠ k' → str_or_absent (<[k := x]> kw) k' = str_or_absent kw k'.
Proof. intros Hne. unfold str_or_absent. by rewrite lookup_insert_ne. Qed.

(** X2. An argument that [get_kwargs] does not read (headers, a timeout, a
    body) does not change the resolution: when the call returns without it,
    the call with it returns the same dict with the argument added, so the
    URL is the same and the argument reaches the transport as it is. *)
Theorem get_kwargs_option_passes (self_url : string)
    (kw r : gmap string pyval) (k : string) (x : pyval) :
  k ≠ "version" → k ≠ "base" → k ≠ "namespace" → k ≠ "pods" → k ≠ "url" →
  get_kwargs self_url kw = Ok r →
  get_kwargs self_url (<[k := x]> kw) = Ok (<[k := x]> r).
Proof.
  intros Hv Hb Hn Hp Hu (Ht & b & Hbase & ->)%get_kwargs_ok_inv.
  rewrite (get_kwargs_typed _ _ b).
  - f_equal. unfold resolved, segments, front_segments, named_segment,
      url_tail, version_of.
    rewrite !str_arg_insert_ne by done.
    apply map_eq. intros i.
    rewrite !lookup_insert, !passthrough_lookup, lookup_insert.
    repeat case_decide; naive_solver.
  - apply path_args_typed_spec in Ht. apply path_args_typed_spec.
    by rewrite !str_or_absent_insert_ne.
  - unfold base_of, version_of in *. by rewrite !str_arg_insert_ne.
Qed.

Lemma get_kwargs_option_passes_witness :
  get_kwargs "https://x:6443"
    (<["timeout" := PObj 30]> (pod_kwargs "default" "foo" "/log"))
  = Ok (<["timeout" := PObj 30]>
          {[ "url" :=
               PStr "https://x:6443/api/v1/namespaces/default/pods/foo/log" ]}).
Proof.
  apply (get_kwargs_option_passes "https://x:6443"
           (pod_kwargs "default" "foo" "/log")); try discriminate.
  reflexivity.
Defined.

(** A component that starts with the separator makes [join] forget what
    comes before it. *)
Lemma join_str_reset a (l1 : list string) s (l2 : list string) :
  Str.startswith s "/" = true →
  posixpath.join_str a (l1 ++ s :: l2) = posixpath.join_str s l2.
Proof.
  intros Hs. unfold posixpath.join_str. rewrite fold_left_app. cbn.
  unfold posixpath.join_step at 2, posixpath.sep. by rewrite Hs.
Qed.

(** X3. A segment that starts with a slash discards the base and every
    segment before it: when the segments of a call are [l1], then such an
    [s], then [l2], the URL is the server followed by the join of [s] and
    [l2] alone. *)
Theorem get_kwargs_absolute_segment (self_url : string)
    (kw : gmap string pyval) (b s : string) (l1 l2 : list string) :
  path_args_typed kw = true →
  base_of kw = Some b →
  segments kw = (l1 ++ s :: l2)%list →
  Str.startswith s "/" = true →
  get_kwargs self_url kw
  = Ok (<["url" := PStr (self_url +:+ posixpath.join_str s l2)]>
          (passthrough kw)).
Proof.
  intros Ht Hb Hseg Hs. rewrite (get_kwargs_typed _ _ b) by done.
  unfold resolved. by rewrite Hseg, join_str_reset.
Qed.

Lemma get_kwargs_absolute_segment_witness :
  get_kwargs "https://x:6443" (pod_kwargs "default" "/foo" "/log")
  = Ok (<["url" := PStr ("https://x:6443" +:+
                         posixpath.join_str "/foo" ["log"])]>
          (passthrough (pod_kwargs "default" "/foo" "/log"))).
Proof.
  apply (get_kwargs_absolute_segment "https://x:6443"
           (pod_kwargs "default" "/foo" "/log") "/api" "/foo"
           ["v1"; "namespaces"; "default"; "pods"] ["log"]);
    reflexivity.
Defined.

(** X4. Only one leading slash of ["url"] is stripped: when what follows it
    starts with a slash again, that rest is the whole path of the URL, and
    base, version, namespace and pods are not in it. *)
Theorem get_kwargs_double_slash_url (self_url : string)
    (kw : gmap string pyval) (b u : string) :
  path_args_typed kw = true →
  base_of kw = Some b →
  kw !! "url" = Some (PStr ("/" +:+ u)) →
  Str.startswith u "/" = true →
  get_kwargs self_url kw
  = Ok (<["url" := PStr (self_url +:+ u)]> (passthrough kw)).
Proof.
  intros Ht Hb Hu Hs.
  assert (url_tail kw = u) as Htail.
  { unfold url_tail, str_arg. rewrite Hu. cbn [from_option id].
    change ("/" +:+ u) with (String "/" u).
    by rewrite startswith_sep_cons, bool_decide_eq_true_2. }
  rewrite (get_kwargs_typed _ _ b) by done.
  unfold resolved, segments. by rewrite Htail, join_str_reset.
Qed.

Lemma get_kwargs_double_slash_url_witness :
  get_kwargs "https://x:6443" (pod_kwargs "default" "foo" "//log")
  = Ok (<["url" := PStr "https://x:6443/log"]>
          (passthrough (pod_kwargs "default" "foo" "//log"))).
Proof.
  apply (get_kwargs_double_slash_url "https://x:6443"
           (pod_kwargs "default" "foo" "//log") "/api" "/log");
    reflexivity.
Defined.

Lemma concat_cons_cons sep a b (l : list string) :
  String.concat sep (a :: b :: l) = a +:+ sep +:+ String.concat sep (b :: l).
Proof. reflexivity. Qed.

(** Joining plain components is putting a separator between them; the last
    one only has to not start with the separator. *)
Lemma join_str_plain a (l : list string) last :
  a ≠ "" → Str.endswith a "/" = false →
  forallb plain l = true →
  Str.startswith last "/" = false →
  posixpath.join_str a (l ++ [last]) = String.concat "/" (a :: l ++ [last]).
Proof.
  revert a. induction l as [|b l IH]; intros a Hne He Hl Hlast.
  - cbn. unfold posixpath.join_step, posixpath.sep. rewrite Hlast, He.
    by destruct (String.eqb_spec a "").
  - cbn [forallb] in Hl. apply andb_true_iff in Hl as [Hb Hl].
    unfold plain in Hb.
    apply andb_true_iff in Hb as [Hb Hbe].
    apply andb_true_iff in Hb as [Hbn Hbs].
    apply negb_true_iff in Hbn, Hbs, Hbe.
    apply String.eqb_neq in Hbn.
    change ((b :: l) ++ [last])%list with (b :: (l ++ [last]))%list.
    change (posixpath.join_str a (b :: l ++ [last]))
      with (posixpath.join_str (posixpath.join_step a b) (l ++ [last])).
    assert (posixpath.join_step a b = a +:+ "/" +:+ b) as ->.
    { unfold posixpath.join_step, posixpath.sep. rewrite Hbs, He.
      by destruct (String.eqb_spec a ""). }
    rewrite IH; try done.
    + destruct (l ++ [last])%list eqn:Hl'.
      { by destruct l. }
      rewrite (concat_cons_cons "/" a b), !concat_cons_cons.
      by rewrite !app_assoc'.
    + by apply app_nonempty_l.
    + rewrite !endswith_sep_app; [done|done|].
      by apply app_nonempty_r.
Qed.

(** X5. For a call with plain segments (a base that is not empty and does
    not end with a slash; a version, namespace and pods that are not empty
    and have no slash at either end; a url that does not start with two
    slashes), the URL is the server followed by the base and the segments
    with one slash between each two of them. *)
Theorem get_kwargs_plain_segments (self_url : string)
    (kw : gmap string pyval) (b : string) :
  path_args_typed kw = true →
  base_of kw = Some b →
  b ≠ "" → Str.endswith b "/" = false →
  forallb plain (front_segments kw) = true →
  Str.startswith (url_tail kw) "/" = false →
  get_kwargs self_url kw
  = Ok (<["url" := PStr (self_url +:+ String.concat "/" (b :: segments kw))]>
          (passthrough kw)).
Proof.
  intros Ht Hb Hne He Hfront Hu.
  rewrite (get_kwargs_typed _ _ b) by done.
  unfold resolved, segments. by rewrite join_str_plain.
Qed.

Lemma get_kwargs_plain_segments_witness :
  get_kwargs "https://x:6443" (pod_kwargs "default" "foo" "/log")
  = Ok (<["url" :=
            PStr ("https://x:6443" +:+
                  String.concat "/"
                    ("/api" :: segments (pod_kwargs "default" "foo" "/log")))]>
          (passthrough (pod_kwargs "default" "foo" "/log"))).
Proof.
  apply (get_kwargs_plain_segments "https://x:6443"
           (pod_kwargs "default" "foo" "/log") "/api");
    try reflexivity.
  discriminate.
Defined.



(** ** Error translation, further *)

Lemma raise_for_status_fallback_witness :
  raise_for_status html_500 = Raise (RequestsHTTPError 500).
Proof.
  apply (proj1 (raise_for_status_fallback html_500 (RequestsHTTPError 500)
                  eq_refl) "text/html").
  - reflexivity.
  - discriminate.
Defined.

(** Whatever happens in the handler, it ends with an exception. *)
Lemma translate_error_raises resp original :
  ∃ e, translate_error resp original = Raise e.
Proof.
  unfold translate_error.
  destruct (CaseInsensitiveDict.getitem _ _) as [ctype|?]; cbn; [|by eauto].
  destruct (String.eqb ctype "application/json"); [|by eauto].
  destruct (Response_json resp) as [payload|?]; cbn; [|by eauto].
  destruct (json_getitem payload "kind") as [kind|?]; cbn; [|by eauto].
  destruct (json_eq_str kind "Status"); [|by eauto].
  destruct (json_getitem payload "message"); cbn; by eauto.
Qed.

(** X7. [raise_for_status] returns exactly for the status codes outside 400
    to 599: informational, success and redirect responses pass, and no error
    response does, whatever its headers and body are. *)
Theorem raise_for_status_returns_iff (resp : Response) :
  raise_for_status resp = Ok tt
  ↔ ¬ (400 ≤ status_code resp < 600).
Proof.
  unfold raise_for_status, Response_raise_for_status.
  destruct (Z.leb_spec 400 (status_code resp)),
    (Z.ltb_spec (status_code resp) 600); cbn [andb].
  - destruct (translate_error_raises resp
                (RequestsHTTPError (status_code resp))) as [e ->].
    split; [done|]. intros Hn. exfalso. apply Hn. lia.
  - split; [lia|done].
  - split; [lia|done].
  - split; [lia|done].
Qed.

(** X9. [raise_for_status] raises pykube's [HTTPError] only for an error
    response whose content type is ["application/json"] and whose body
    decodes to a dict with ["kind"] equal to ["Status"]; the argument of the
    exception is then the ["message"] of that dict. *)
Theorem raise_for_status_http_error_only (resp : Response) (m : pyjson) :
  raise_for_status resp = Raise (HTTPError m) →
  400 ≤ status_code resp < 600
  ∧ CaseInsensitiveDict.lookup (resp_headers resp) "content-type"
    = Some "application/json"
  ∧ ∃ d, resp_json resp = Some (JDict d)
         ∧ d !! "kind" = Some (JStr "Status")
         ∧ d !! "message" = Some m.
Proof.
  unfold raise_for_status, Response_raise_for_status, translate_error,
    CaseInsensitiveDict.getitem, CaseInsensitiveDict.lookup, Response_json.
  destruct (Z.leb_spec 400 (status_code resp)),
    (Z.ltb_spec (status_code resp) 600); cbn [andb]; try done.
  destruct (resp_headers resp !! _) as [ctype|]; cbn; [|done].
  destruct (String.eqb_spec ctype "application/json") as [->|_]; [|done].
  destruct (resp_json resp) as [payload|]; cbn; [|done].
  destruct payload as [| | | |l|d]; cbn; try done.
  unfold Dict.getitem.
  destruct (d !! "kind") as [kind|] eqn:Hk; cbn; [|done].
  destruct kind as [| | |k| |]; cbn; try done.
  destruct (String.eqb_spec k "Status") as [->|_]; [|done].
  destruct (d !! "message") as [msg|] eqn:Hm; cbn; [|done].
  intros [= <-]. split; [lia|]. split; [done|]. by exists d.
Qed.

Lemma raise_for_status_http_error_only_witness :
  400 ≤ status_code not_found_404 < 600
  ∧ CaseInsensitiveDict.lookup (resp_headers not_found_404) "content-type"
    = Some "application/json"
  ∧ ∃ d, resp_json not_found_404 = Some (JDict d)
         ∧ d !! "kind" = Some (JStr "Status")
         ∧ d !! "message" = Some (JStr not_found_message).
Proof.
  apply (raise_for_status_http_error_only not_found_404). reflexivity.
Defined.

(** ** Session construction, further *)

(** X10. [build_session] returns exactly when the user has no
    ["client-certificate"] or has a ["client-key"]: a certificate without
    its key is the only configuration that it refuses. *)
Theorem build_session_returns_iff (config : Config) :
  (∃ s, build_session config = Ok s)
  ↔ client_certificate (user config) = None
    ∨ is_Some (client_key (user config)).
Proof.
  unfold build_session, token_given.
  destruct (certificate_authority (cluster config)) as [ca|];
    destruct (token (user config)) as [t|];
    try destruct (str_truthy t);
    destruct (client_certificate (user config)) as [crt|];
    destruct (client_key (user config)) as [key|]; cbn.
  all: split; [intros [s Hs]|intros Hc].
  all: try discriminate Hs.
  all: try (by eexists).
  all: try (by right; eexists).
  all: try (by left).
  all: destruct Hc as [?|[? ?]]; done.
Qed.

(** X11. A built session verifies TLS against the file of the
    ["certificate-authority"] of the cluster when there is one, and keeps
    the default of requests, [True], when there is none. *)
Theorem build_session_verify (config : Config) (s : Session) :
  build_session config = Ok s →
  verify s =
  match certificate_authority (cluster config) with
  | Some ca => VerifyPath (filename ca)
  | None => VerifyBool true
  end.
Proof.
  unfold build_session, token_given.
  destruct (certificate_authority (cluster config)) as [ca|];
    destruct (token (user config)) as [t|];
    try destruct (str_truthy t);
    destruct (client_certificate (user config)) as [crt|];
    try destruct (client_key (user config)) as [key|];
    cbn; by intros [= <-].
Qed.

Lemma build_session_verify_witness :
  ∃ s, build_session token_config = Ok s
       ∧ verify s = VerifyPath "/etc/kube/ca.crt".
Proof.
  eexists. split; [reflexivity|].
  apply (build_session_verify token_config). reflexivity.
Defined.

(** X12. A ["client-key"] without a ["client-certificate"] is not looked
    at: the session is built and has no client certificate. *)
Theorem build_session_key_alone (config : Config) :
  client_certificate (user config) = None →
  ∃ s, build_session config = Ok s ∧ cert s = None.
Proof.
  intros Hc. unfold build_session, token_given. rewrite Hc.
  destruct (certificate_authority (cluster config)) as [ca|];
    destruct (token (user config)) as [t|];
    try destruct (str_truthy t); cbn; by eexists.
Qed.

Lemma build_session_key_alone_witness :
  ∃ s, build_session
         {| cluster := sample_cluster;
            user := {| token := None;
                       client_certificate := None;
                       client_key := Some {| filename := "/etc/kube/me.key" |}
                    |} |} = Ok s
       ∧ cert s = None.
Proof.
  apply (build_session_key_alone
           {| cluster := sample_cluster;
              user := {| token := None;
                         client_certificate := None;
                         client_key := Some {| filename := "/etc/kube/me.key" |}
                      |} |}).
  reflexivity.
Defined.

(** X13. [build_session] sets no header but ["Authorization"]: under every
    other name a built session has what a fresh session has. *)
Theorem build_session_other_headers (config : Config) (s : Session)
    (k : string) :
  build_session config = Ok s →
  Str.lower k ≠ "authorization" →
  CaseInsensitiveDict.lookup (headers s) k
  = CaseInsensitiveDict.lookup (headers requests_Session) k.
Proof.
  intros Hs%build_session_headers Hk. rewrite Hs.
  destruct (token (user config)) as [t|]; [|done].
  destruct (str_truthy t); [|done].
  unfold CaseInsensitiveDict.lookup, CaseInsensitiveDict.setitem.
  by rewrite lookup_insert_ne.
Qed.

Lemma build_session_other_headers_witness :
  ∃ s, build_session token_config = Ok s
       ∧ CaseInsensitiveDict.lookup (headers s) "Accept"
         = CaseInsensitiveDict.lookup (headers requests_Session) "Accept".
Proof.
  eexists. split; [reflexivity|].
  apply (build_session_other_headers token_config).
  - reflexivity.
  - discriminate.
Defined.

(** ** The client and its verb methods *)

Lemma init_inv cfg self :
  Client.init cfg = Ok self →
  build_session cfg = Ok (Client.session self)
  ∧ Client.url self = server (cluster cfg)
  ∧ Client.config self = cfg.
Proof.
  unfold Client.init. destruct (build_session cfg) as [s|e]; cbn; [|done].
  by intros [= <-].
Qed.

Section Verbs.

Context {W : Type}.
Variable session_call :
  string → Session → list pyval → gmap string pyval → W → result Response * W.

(** X14. On a client that [__init__] has built from a configuration, each
    of the eight methods makes the session call of its own name, on the
    session that [build_session] returns for the configuration, with its
    positional arguments as they are and with the keyword arguments
    resolved against the server of the cluster; what the session returns
    or raises is the outcome of the method, so that the response of a
    failed request is returned and not turned into an exception. *)
Theorem client_verbs_delegate (cfg : Config) (self : Client.HTTPClient)
    (args : list pyval) (kwargs : gmap string pyval) (b : string) (w : W) :
  Client.init cfg = Ok self →
  path_args_typed kwargs = true →
  base_of kwargs = Some b →
  build_session cfg = Ok (Client.session self)
  ∧ ∀ kw, kw = resolved (server (cluster cfg)) b kwargs →
     Client.request session_call self args kwargs w
     = session_call "request" (Client.session self) args kw w
     ∧ Client.get session_call self args kwargs w
       = session_call "get" (Client.session self) args kw w
     ∧ Client.options session_call self args kwargs w
       = session_call "options" (Client.session self) args kw w
     ∧ Client.head session_call self args kwargs w
       = session_call "head" (Client.session self) args kw w
     ∧ Client.post session_call self args kwargs w
       = session_call "post" (Client.session self) args kw w
     ∧ Client.put session_call self args kwargs w
       = session_call "put" (Client.session self) args kw w
     ∧ Client.patch session_call self args kwargs w
       = session_call "patch" (Client.session self) args kw w
     ∧ Client.delete session_call self args kwargs w
       = session_call "delete" (Client.session self) args kw w.
Proof.
  intros (Hs & Hu & _)%init_inv Ht Hb. split; [done|]. intros kw ->.
  unfold Client.request, Client.get, Client.options, Client.head,
    Client.post, Client.put, Client.patch, Client.delete, Client.dispatch.
  rewrite Hu, (get_kwargs_typed _ _ b) by done.
  repeat split.
Qed.

(** X15. When the keyword arguments do not resolve, each of the eight
    methods raises the exception of [get_kwargs] and the world is as
    before: the session is not called and nothing is sent. *)
Theorem client_verbs_unresolved (self : Client.HTTPClient)
    (args : list pyval) (kwargs : gmap string pyval) (e : exn) (w : W) :
  get_kwargs (Client.url self) kwargs = Raise e →
  Client.request session_call self args kwargs w = (Raise e, w)
  ∧ Client.get session_call self args kwargs w = (Raise e, w)
  ∧ Client.options session_call self args kwargs w = (Raise e, w)
  ∧ Client.head session_call self args kwargs w = (Raise e, w)
  ∧ Client.post session_call self args kwargs w = (Raise e, w)
  ∧ Client.put session_call self args kwargs w = (Raise e, w)
  ∧ Client.patch session_call self args kwargs w = (Raise e, w)
  ∧ Client.delete session_call self args kwargs w = (Raise e, w).
Proof.
  intros Hr.
  unfold Client.request, Client.get, Client.options, Client.head,
    Client.post, Client.put, Client.patch, Client.delete, Client.dispatch.
  rewrite Hr. repeat split.
Qed.

End Verbs.

Lemma client_verbs_delegate_witness :
  ∃ self,
    Client.init token_config = Ok self
    ∧ Client.get recording_transport self [PObj 7]
        (pod_kwargs "default" "foo" "/log") []
      = (Ok not_found_404,
         [("get", [PObj 7],
           resolved "https://x:6443" "/api"
             (pod_kwargs "default" "foo" "/log"))]).
Proof.
  eexists. split; [reflexivity|].
  eapply (client_verbs_delegate recording_transport token_config _
            [PObj 7] (pod_kwargs "default" "foo" "/log") "/api" []);
    reflexivity.
Defined.

Lemma client_verbs_unresolved_witness :
  ∃ self,
    Client.init token_config = Ok self
    ∧ Client.delete recording_transport self []
        (<["version" := PStr "apps/v1"]> ∅) []
      = (Raise unknown_version, []).
Proof.
  eexists. split; [reflexivity|].
  eapply (client_verbs_unresolved recording_transport _ []
            (<["version" := PStr "apps/v1"]> ∅) unknown_version []).
  reflexivity.
Defined.
